(** * The service dispatch engine of home_service_collection

    A shallow embedding of [service/ServiceBase/message.py] and
    [service/ServiceBase/service_base.py]: the envelope classes, the handler
    registries, the table of awaited requests and the message handler that a
    service subscribes on its own channel.

    Python values are an inductive type, Python dictionaries are association
    lists in insertion order, exceptions are an error monad over the mutable
    service object, and what the handlers and hooks do is observed through a
    call log. *)

From Stdlib Require Import ZArith NArith List String Ascii Bool.
Import ListNotations.

Local Open Scope string_scope.
Set Warnings "-register-all".

(* ================================================================== *)
(** ** Python values *)

(** The values that flow through the service: what [json.loads] returns
    (numbers restricted to integers), plus the two kinds of object the code
    builds that are not JSON: the [UUID] returned by [uuid.uuid4()] and the
    [dict_keys] view returned by [dict.keys()]. *)
Inductive value : Type :=
| VNone
| VBool (b : bool)
| VInt (z : Z)
| VStr (s : string)
| VList (items : list value)
| VDict (fields : list (string * value))
| VUuid (u : N)
| VKeys (ks : list value).

Inductive exn : Type :=
| KeyError (k : value)
| TypeError
| ValueError
| JSONDecodeError
| AttributeError.

Inductive result (A : Type) : Type :=
| Ok (a : A)
| Raise (e : exn).
Arguments Ok {A} a.
Arguments Raise {A} e.

Definition rbind {A B} (r : result A) (f : A -> result B) : result B :=
  match r with
  | Ok a => f a
  | Raise e => Raise e
  end.

Declare Scope result_scope.
Delimit Scope result_scope with result.
Notation "x <- r ;; k" := (rbind r (fun x => k))
  (at level 61, r at next level, right associativity) : result_scope.

Definition raises {A} (r : result A) : bool :=
  match r with
  | Ok _ => false
  | Raise _ => true
  end.

(** [v == s] for a string literal [s]. *)
Definition is_str (v : value) (s : string) : bool :=
  match v with
  | VStr s' => String.eqb s' s
  | _ => false
  end.

(** [v is not None]. *)
Definition is_not_None (v : value) : bool :=
  match v with
  | VNone => false
  | _ => true
  end.

(* ------------------------------------------------------------------ *)
(** *** Dictionaries with string keys: JSON objects and dict literals *)

Fixpoint assoc (k : string) (d : list (string * value)) : option value :=
  match d with
  | [] => None
  | (k', v) :: d' => if String.eqb k' k then Some v else assoc k d'
  end.

(** [d[k] = v] on a dict: replaces in place, or appends as the newest key. *)
Fixpoint assoc_set (k : string) (v : value) (d : list (string * value))
  : list (string * value) :=
  match d with
  | [] => [(k, v)]
  | (k', v') :: d' =>
      if String.eqb k' k then (k, v) :: d' else (k', v') :: assoc_set k v d'
  end.

(** [raw[k]]: only a dict can be subscripted by a string. *)
Definition getitem (raw : value) (k : string) : result value :=
  match raw with
  | VDict d =>
      match assoc k d with
      | Some v => Ok v
      | None => Raise (KeyError (VStr k))
      end
  | _ => Raise TypeError
  end.

(** [raw.get(k)], for [raw] a dict. *)
Definition get_or_None (raw : value) (k : string) : value :=
  match raw with
  | VDict d =>
      match assoc k d with
      | Some v => v
      | None => VNone
      end
  | _ => VNone
  end.

(* ------------------------------------------------------------------ *)
(** *** [int(x)] *)

Definition is_space (c : ascii) : bool :=
  let n := nat_of_ascii c in
  Nat.eqb n 32 || (Nat.leb 9 n && Nat.leb n 13) || (Nat.leb 28 n && Nat.leb n 31).

Definition digit_of (c : ascii) : option Z :=
  let n := nat_of_ascii c in
  if Nat.leb 48 n && Nat.leb n 57 then Some (Z.of_nat (n - 48)) else None.

(** Decimal digits, single underscores allowed between two digits. *)
Fixpoint digits (acc : Z) (after_digit : bool) (cs : list ascii) : option Z :=
  match cs with
  | [] => if after_digit then Some acc else None
  | c :: cs' =>
      match digit_of c with
      | Some d => digits (10 * acc + d) true cs'
      | None =>
          if Ascii.eqb c "_"%char && after_digit then digits acc false cs'
          else None
      end
  end.

Fixpoint lstrip (cs : list ascii) : list ascii :=
  match cs with
  | c :: cs' => if is_space c then lstrip cs' else cs
  | [] => []
  end.

Definition strip (cs : list ascii) : list ascii :=
  rev (lstrip (rev (lstrip cs))).

Definition int_of_str (s : string) : option Z :=
  match strip (list_ascii_of_string s) with
  | "-"%char :: cs => option_map Z.opp (digits 0 false cs)
  | "+"%char :: cs => digits 0 false cs
  | cs => digits 0 false cs
  end.

Definition py_int (v : value) : result Z :=
  match v with
  | VInt z => Ok z
  | VBool b => Ok (Z.b2z b)
  | VUuid u => Ok (Z.of_N u)
  | VStr s =>
      match int_of_str s with
      | Some z => Ok z
      | None => Raise ValueError
      end
  | VNone | VList _ | VDict _ | VKeys _ => Raise TypeError
  end.

(* ------------------------------------------------------------------ *)
(** *** [json.dumps] and [json.loads] *)

(** What the [json] encoder accepts. *)
Fixpoint serialisable (v : value) : bool :=
  match v with
  | VNone | VBool _ | VInt _ | VStr _ => true
  | VList l => forallb serialisable l
  | VDict d => forallb (fun kv => match kv with (_, x) => serialisable x end) d
  | VUuid _ | VKeys _ => false
  end.

(** Text on the wire, up to what [json.loads] returns on it: either the
    rendering of a JSON value, or bytes that are not JSON at all. *)
Inductive text : Type :=
| Dumped (v : value)
| Garbage (bytes : string).

Definition json_dumps (v : value) : result text :=
  if serialisable v then Ok (Dumped v) else Raise TypeError.

Definition json_loads (t : text) : result value :=
  match t with
  | Dumped v => if serialisable v then Ok v else Raise JSONDecodeError
  | Garbage _ => Raise JSONDecodeError
  end.

(* ------------------------------------------------------------------ *)
(** *** Dictionaries keyed by arbitrary hashable objects *)

(** A key as a dict sees it: [True] and [1] are the same key, a [UUID] is
    equal to no string and no number, lists, dicts and key views are
    unhashable. *)
Inductive key : Type :=
| KNone
| KInt (z : Z)
| KStr (s : string)
| KUuid (u : N).

Definition key_eqb (a b : key) : bool :=
  match a, b with
  | KNone, KNone => true
  | KInt x, KInt y => Z.eqb x y
  | KStr x, KStr y => String.eqb x y
  | KUuid x, KUuid y => N.eqb x y
  | _, _ => false
  end.

Definition hash (v : value) : result key :=
  match v with
  | VNone => Ok KNone
  | VBool b => Ok (KInt (Z.b2z b))
  | VInt z => Ok (KInt z)
  | VStr s => Ok (KStr s)
  | VUuid u => Ok (KUuid u)
  | VList _ | VDict _ | VKeys _ => Raise TypeError
  end.

Definition unkey (k : key) : value :=
  match k with
  | KNone => VNone
  | KInt z => VInt z
  | KStr s => VStr s
  | KUuid u => VUuid u
  end.

Module PyDict.
Section Ops.
Context {V : Type}.

Definition t := list (key * V).

Fixpoint lookup (k : key) (d : t) : option V :=
  match d with
  | [] => None
  | (k', x) :: d' => if key_eqb k' k then Some x else lookup k d'
  end.

Fixpoint store (k : key) (x : V) (d : t) : t :=
  match d with
  | [] => [(k, x)]
  | (k', x') :: d' =>
      if key_eqb k' k then (k', x) :: d' else (k', x') :: store k x d'
  end.

Fixpoint remove (k : key) (d : t) : t :=
  match d with
  | [] => []
  | (k', x') :: d' =>
      if key_eqb k' k then remove k d' else (k', x') :: remove k d'
  end.

(** [d.get(k)] *)
Definition get (d : t) (k : value) : result (option V) :=
  (h <- hash k ;; Ok (lookup h d))%result.

(** [k in d] *)
Definition contains (d : t) (k : value) : result bool :=
  (h <- hash k ;;
   Ok (match lookup h d with Some _ => true | None => false end))%result.

(** [d[k]] *)
Definition item (d : t) (k : value) : result V :=
  (h <- hash k ;;
   match lookup h d with
   | Some x => Ok x
   | None => Raise (KeyError k)
   end)%result.

(** [d[k] = x] *)
Definition setitem (d : t) (k : value) (x : V) : result t :=
  (h <- hash k ;; Ok (store h x d))%result.

(** [del d[k]] *)
Definition delitem (d : t) (k : value) : result t :=
  (h <- hash k ;;
   match lookup h d with
   | Some _ => Ok (remove h d)
   | None => Raise (KeyError k)
   end)%result.

(** [d.keys()] *)
Definition keys (d : t) : list value := map (fun e => unkey (fst e)) d.
End Ops.
Arguments t V : clear implicits.
End PyDict.

(* ================================================================== *)
(** ** message.py *)

(** The attributes that [Message.__init__] sets. *)
Record Message : Type := mkMessage {
  _id : value;
  _origin : value;
  _topic : value;
  _name : value;
  _data : value
}.

(** The three concrete classes; a [Response] adds [_status] and [_error]. *)
Inductive Envelope : Type :=
| Report (m : Message)
| Request (m : Message)
| Response (m : Message) (_status : Z) (_error : value).

Definition base (e : Envelope) : Message :=
  match e with
  | Report m | Request m | Response m _ _ => m
  end.

Definition Message_init (raw_response : value) : result Message :=
  (i <- getitem raw_response "id" ;;
   o <- getitem raw_response "origin" ;;
   t <- getitem raw_response "topic" ;;
   n <- getitem raw_response "name" ;;
   d <- getitem raw_response "data" ;;
   Ok (mkMessage i o t n d))%result.

Definition Report_init (raw_response : value) : result Envelope :=
  (m <- Message_init raw_response ;; Ok (Report m))%result.

Definition Request_init (raw_response : value) : result Envelope :=
  (m <- Message_init raw_response ;; Ok (Request m))%result.

Definition Response_init (raw_response : value) : result Envelope :=
  (m <- Message_init raw_response ;;
   s <- getitem raw_response "status" ;;
   status <- py_int s ;;
   Ok (Response m status (get_or_None raw_response "error")))%result.

(* ================================================================== *)
(** ** service_base.py *)

Definition _CONTROLLER_CHANEL : string := "service:controller".

(** The callables the service stores in its tables.  A user function is
    known by its name and by the payload it returns; the two callables that
    [run] builds itself are the lambda around the shutdown hook and the
    bound method [self.registered].  Handlers and hooks are taken to return,
    and to leave the tables of the service alone. *)
Inductive callable : Type :=
| UserFn (name : string) (returns : Envelope -> value)
| ShutdownLambda
| RegisteredMethod.

(** What a call makes observable. *)
Inductive event : Type :=
| Called (name : string) (arg : Envelope)
| ShutdownHook
| RegisteredHook (status : Envelope).

Record ServiceBase : Type := mkService {
  _service_channel : option string;
  _redis_host : string;
  _redis_port : Z;
  (** [None] until [run]; then the client, seen as the list of what was
      handed to its [publish], oldest first. *)
  _redis_client : option (list (option string * text));
  _request_handlers : PyDict.t (PyDict.t callable);
  _report_handlers : PyDict.t (PyDict.t callable);
  _service_name : string;
  _awaiting_requests : PyDict.t callable
}.

Definition ServiceBase_init : ServiceBase :=
  {| _service_channel := None;
     _redis_host := "localhost";
     _redis_port := 6379;
     _redis_client := None;
     _request_handlers := [];
     _report_handlers := [];
     _service_name := "ServiceBase";
     _awaiting_requests := [] |}.

Definition set_redis_client (c : option (list (option string * text)))
  (self : ServiceBase) : ServiceBase :=
  {| _service_channel := _service_channel self;
     _redis_host := _redis_host self;
     _redis_port := _redis_port self;
     _redis_client := c;
     _request_handlers := _request_handlers self;
     _report_handlers := _report_handlers self;
     _service_name := _service_name self;
     _awaiting_requests := _awaiting_requests self |}.

Definition set_request_handlers (h : PyDict.t (PyDict.t callable))
  (self : ServiceBase) : ServiceBase :=
  {| _service_channel := _service_channel self;
     _redis_host := _redis_host self;
     _redis_port := _redis_port self;
     _redis_client := _redis_client self;
     _request_handlers := h;
     _report_handlers := _report_handlers self;
     _service_name := _service_name self;
     _awaiting_requests := _awaiting_requests self |}.

Definition set_report_handlers (h : PyDict.t (PyDict.t callable))
  (self : ServiceBase) : ServiceBase :=
  {| _service_channel := _service_channel self;
     _redis_host := _redis_host self;
     _redis_port := _redis_port self;
     _redis_client := _redis_client self;
     _request_handlers := _request_handlers self;
     _report_handlers := h;
     _service_name := _service_name self;
     _awaiting_requests := _awaiting_requests self |}.

Definition set_awaiting_requests (a : PyDict.t callable)
  (self : ServiceBase) : ServiceBase :=
  {| _service_channel := _service_channel self;
     _redis_host := _redis_host self;
     _redis_port := _redis_port self;
     _redis_client := _redis_client self;
     _request_handlers := _request_handlers self;
     _report_handlers := _report_handlers self;
     _service_name := _service_name self;
     _awaiting_requests := a |}.

(** The [config] dict of [configure], with the types its docstring gives;
    [None] for a key that is not in the dict. *)
Record config : Type := mkConfig {
  cfg_name : option string;
  cfg_host : option string;
  cfg_port : option Z
}.

Definition or_else {A} (o : option A) (d : A) : A :=
  match o with
  | Some a => a
  | None => d
  end.

Definition configure (cfg : config) (self : ServiceBase) : ServiceBase :=
  let name := or_else (cfg_name cfg) (_service_name self) in
  {| _service_channel := Some ("service:" ++ name);
     _redis_host := or_else (cfg_host cfg) (_redis_host self);
     _redis_port := or_else (cfg_port cfg) (_redis_port self);
     _redis_client := _redis_client self;
     _request_handlers := _request_handlers self;
     _report_handlers := _report_handlers self;
     _service_name := name;
     _awaiting_requests := _awaiting_requests self |}.

(* ------------------------------------------------------------------ *)
(** *** Methods: exceptions over the mutable service and the call log *)

(** A method runs on the service object and the log of calls made so far;
    when it raises, what it changed before stays changed. *)
Definition world : Type := (ServiceBase * list event)%type.
Definition M (A : Type) : Type := world -> result A * world.

Definition ret {A} (a : A) : M A := fun w => (Ok a, w).

Definition bind {A B} (m : M A) (f : A -> M B) : M B :=
  fun w =>
    match m w with
    | (Ok a, w') => f a w'
    | (Raise e, w') => (Raise e, w')
    end.

Definition lift {A} (r : result A) : M A := fun w => (r, w).
Definition attr {A} (f : ServiceBase -> A) : M A := fun w => (Ok (f (fst w)), w).
Definition update (f : ServiceBase -> ServiceBase) : M unit :=
  fun w => (Ok tt, (f (fst w), snd w)).
Definition emit (e : event) : M unit :=
  fun w => (Ok tt, (fst w, (snd w ++ [e])%list)).

Declare Scope method_scope.
Delimit Scope method_scope with method.
Notation "x <- m ;; k" := (bind m (fun x => k))
  (at level 61, m at next level, right associativity) : method_scope.
Notation "m ;;; k" := (bind m (fun _ => k))
  (at level 61, right associativity) : method_scope.
Local Open Scope method_scope.

(** [f(arg)] *)
Definition call (f : callable) (arg : Envelope) : M value :=
  match f with
  | UserFn name returns => emit (Called name arg) ;;; ret (returns arg)
  | ShutdownLambda => emit ShutdownHook ;;; ret VNone
  | RegisteredMethod => emit (RegisteredHook arg) ;;; ret VNone
  end.

(** [self._redis_client.publish(channel, json.dumps(v))]: the attribute of
    the client is looked up before the argument is evaluated. *)
Definition publish_dumps (channel : option string) (v : value) : M unit :=
  c <- attr _redis_client ;;
  match c with
  | None => lift (Raise AttributeError)
  | Some sent =>
      payload <- lift (json_dumps v) ;;
      update (set_redis_client (Some (sent ++ [(channel, payload)])%list))
  end.

Definition _find_handler (topic name : value)
  (handlers : PyDict.t (PyDict.t callable)) : result (option callable) :=
  (present <- PyDict.contains handlers topic ;;
   if negb present then Ok None
   else names <- PyDict.item handlers topic ;; PyDict.get names name)%result.

(** [self._request_handlers if is_request else self._report_handlers] *)
Definition dest_of (is_request : bool) (self : ServiceBase)
  : PyDict.t (PyDict.t callable) :=
  if is_request then _request_handlers self else _report_handlers self.

Definition _register_handler (topic name : value) (is_request : bool)
  (handler : callable) : M unit :=
  dest <- attr (dest_of is_request) ;;
  dest' <- lift (present <- PyDict.contains dest topic ;;
                 if present : bool then
                   names <- PyDict.item dest topic ;;
                   names' <- PyDict.setitem names name handler ;;
                   PyDict.setitem dest topic names'
                 else
                   names' <- PyDict.setitem [] name handler ;;
                   PyDict.setitem dest topic names')%result ;;
  update (if is_request then set_request_handlers dest'
          else set_report_handlers dest').

Definition report (topic name payload : value) : M unit :=
  origin <- attr _service_name ;;
  let report := VDict [("type", VStr "report");
                       ("topic", topic);
                       ("name", name);
                       ("origin", VStr origin);
                       ("data", payload)] in
  publish_dumps (Some _CONTROLLER_CHANEL) report.

(** [uuid4] is the value that [uuid.uuid4()] draws in this call. *)
Definition request (uuid4 : N) (topic name : value) (handler : callable)
  (payload : value) : M unit :=
  origin <- attr _service_name ;;
  let request := [("id", VUuid uuid4);
                  ("type", VStr "report");
                  ("topic", topic);
                  ("name", name);
                  ("origin", VStr origin)] in
  let request :=
    if is_not_None payload then assoc_set "data" payload request
    else request in
  awaiting <- attr _awaiting_requests ;;
  awaiting' <- lift (PyDict.setitem awaiting (VUuid uuid4) handler) ;;
  update (set_awaiting_requests awaiting') ;;;
  publish_dumps (Some _CONTROLLER_CHANEL) (VDict request).

Definition _handle_report (report : Envelope) : M unit :=
  handlers <- attr _report_handlers ;;
  handler <- lift (_find_handler (_topic (base report)) (_name (base report))
                     handlers) ;;
  match handler with
  | Some h => call h report ;;; ret tt
  | None => ret tt
  end.

Definition _handle_request (request : Envelope) : M (option value) :=
  handlers <- attr _request_handlers ;;
  handler <- lift (_find_handler (_topic (base request))
                     (_name (base request)) handlers) ;;
  match handler with
  | None => ret None
  | Some h =>
      payload <- call h request ;;
      origin <- attr _service_name ;;
      let response := [("id", _id (base request));
                       ("type", VStr "response");
                       ("topic", _topic (base request));
                       ("name", _name (base request));
                       ("origin", VStr origin)] in
      let response :=
        if is_not_None payload then assoc_set "data" payload response
        else response in
      ret (Some (VDict response))
  end.

(** What the subscription hands to the handler: the kind of the delivery
    and its payload. *)
Record redis_message : Type := mkDelivery {
  rm_type : string;
  rm_data : text
}.

Definition _message_handler (redis_message : redis_message) : M unit :=
  if String.eqb (rm_type redis_message) "message" then
    message <- lift (json_loads (rm_data redis_message)) ;;
    ty <- lift (getitem message "type") ;;
    if is_str ty "request" then
      request <- lift (Request_init message) ;;
      response <- _handle_request request ;;
      match response with
      | Some r =>
          channel <- attr _service_channel ;;
          publish_dumps channel r
      | None => ret tt
      end
    else if is_str ty "report" then
      report <- lift (Report_init message) ;;
      _handle_report report
    else if is_str ty "response" then
      response <- lift (Response_init message) ;;
      awaiting <- attr _awaiting_requests ;;
      handler <- lift (PyDict.get awaiting (_id (base response))) ;;
      match handler with
      | Some h =>
          call h response ;;;
          awaiting <- attr _awaiting_requests ;;
          awaiting' <- lift (PyDict.delitem awaiting (_id (base response))) ;;
          update (set_awaiting_requests awaiting')
      | None => ret tt
      end
    else ret tt
  else ret tt.

Definition registration_groups (handlers : PyDict.t (PyDict.t callable))
  : value :=
  VList (map (fun e => VDict [("topic", unkey (fst e));
                              ("names", VKeys (PyDict.keys (snd e)))])
             handlers).

Definition _register_service (uuid4 : N) : M unit :=
  name <- attr _service_name ;;
  channel <- attr _service_channel ;;
  requests <- attr _request_handlers ;;
  reports <- attr _report_handlers ;;
  let registration_data :=
    VDict [("name", VStr name);
           ("channel", match channel with Some c => VStr c | None => VNone end);
           ("requests", registration_groups requests);
           ("reports", registration_groups reports)] in
  request uuid4 (VStr "system") (VStr "register") RegisteredMethod
    registration_data.

(** [run]: the client is created and the handler subscribed, the shutdown
    lambda is registered, the listener thread starts, and the service
    announces itself. *)
Definition run (uuid4 : N) : M unit :=
  update (set_redis_client (Some [])) ;;;
  _register_handler (VStr "service") (VStr "shutdown") false ShutdownLambda ;;;
  _register_service uuid4.


(* ================================================================== *)
(** ** Observations on the methods *)

(** What a call returns and what it leaves in the log. *)
Definition returned (f : callable) (arg : Envelope) : value :=
  match f with
  | UserFn _ returns => returns arg
  | ShutdownLambda | RegisteredMethod => VNone
  end.

Definition observed (f : callable) (arg : Envelope) : event :=
  match f with
  | UserFn name _ => Called name arg
  | ShutdownLambda => ShutdownHook
  | RegisteredMethod => RegisteredHook arg
  end.

(** The decoding stage of [_message_handler] on its own: the constructor
    that the handler picks for the type of the message, applied to the
    message.  For a type that is none of the three the handler constructs
    nothing and goes on to do nothing. *)
Definition decode (message : value) : result (option Envelope) :=
  (ty <- getitem message "type" ;;
   if is_str ty "request" then e <- Request_init message ;; Ok (Some e)
   else if is_str ty "report" then e <- Report_init message ;; Ok (Some e)
   else if is_str ty "response" then e <- Response_init message ;; Ok (Some e)
   else Ok None)%result.

(** From the payload of a delivery to the envelope. *)
Definition receive (payload : text) : result (option Envelope) :=
  (message <- json_loads payload ;; decode message)%result.

Definition lacks (message : value) (k : string) : bool :=
  raises (getitem message k).

Definition known_kind (ty : value) : bool :=
  is_str ty "report" || is_str ty "request" || is_str ty "response".

(** The decoding failures as the specification words them: a header field
    is missing ([id] counted for a Request or a Response only), or the kind
    is none of the three. *)
Definition spec_decode_fails (message : value) : bool :=
  match getitem message "type" with
  | Raise _ => true
  | Ok ty =>
      if is_str ty "report" then
        lacks message "origin" || lacks message "topic" || lacks message "name"
      else if is_str ty "request" || is_str ty "response" then
        lacks message "id" || lacks message "origin" || lacks message "topic"
        || lacks message "name"
      else true
  end.

(** The header fields whose absence makes the constructors raise, for a
    message of type [ty]; a Response also needs a [status] that [int]
    accepts. *)
Definition header_incomplete (message ty : value) : bool :=
  lacks message "origin" || lacks message "topic" || lacks message "name"
  || ((is_str ty "request" || is_str ty "response") && lacks message "id")
  || (is_str ty "response"
      && raises (s <- getitem message "status" ;; py_int s)%result).

(* ------------------------------------------------------------------ *)
(** *** A sample service and its traffic *)

Definition on_echo : callable :=
  UserFn "on_echo"
    (fun request => VDict [("echo", get_or_None (_data (base request)) "message")]).

Definition on_heartbeat : callable := UserFn "on_heartbeat" (fun _ => VNone).

Definition _random_handler : callable :=
  UserFn "_random_handler" (fun _ => VNone).

(** Constructed, configured with the name [sample], and its two handlers
    bound. *)
Definition sample_bound : world :=
  snd ((_register_handler (VStr "sample") (VStr "echo") true on_echo ;;;
        _register_handler (VStr "system") (VStr "heartbeat") false on_heartbeat)
         (configure (mkConfig (Some "sample") None None) ServiceBase_init, [])).

(** The same service once [run] has been called. *)
Definition sample_started : world := snd (run 7 sample_bound).

Definition envelope (type : string) (fields : list (string * value)) : value :=
  VDict (("type", VStr type) :: fields).

Definition delivery (message : value) : redis_message :=
  mkDelivery "message" (Dumped message).

Definition shutdown_request : value :=
  envelope "request"
    [("id", VStr "r-1"); ("origin", VStr "controller");
     ("topic", VStr "service"); ("name", VStr "shutdown"); ("data", VNone)].

Definition echo_request : value :=
  envelope "request"
    [("id", VStr "r-2"); ("origin", VStr "controller");
     ("topic", VStr "sample"); ("name", VStr "echo");
     ("data", VDict [("message", VStr "hi")])].

Definition echo_response : value :=
  VDict [("id", VStr "r-2"); ("type", VStr "response");
         ("topic", VStr "sample"); ("name", VStr "echo");
         ("origin", VStr "sample"); ("data", VDict [("echo", VStr "hi")])].

Definition unrouted_request : value :=
  envelope "request"
    [("id", VStr "r-3"); ("origin", VStr "controller");
     ("topic", VStr "sample"); ("name", VStr "reverse"); ("data", VNone)].

Definition random_number_response (id : value) : value :=
  envelope "response"
    [("id", id); ("origin", VStr "controller"); ("topic", VStr "system");
     ("name", VStr "get_random_number"); ("data", VDict [("value", VInt 42)]);
     ("status", VInt 0)].

Definition response_without_status : value :=
  envelope "response"
    [("id", VStr "r-4"); ("origin", VStr "controller"); ("topic", VStr "system");
     ("name", VStr "get_random_number"); ("data", VDict [("value", VInt 42)])].

Definition report_without_id : value :=
  envelope "report"
    [("origin", VStr "controller"); ("topic", VStr "system");
     ("name", VStr "heartbeat"); ("data", VNone)].

Definition request_without_data : value :=
  envelope "request"
    [("id", VStr "r-5"); ("origin", VStr "controller");
     ("topic", VStr "sample"); ("name", VStr "echo")].

Definition unknown_kind : value :=
  envelope "event"
    [("id", VStr "r-6"); ("origin", VStr "controller");
     ("topic", VStr "system"); ("name", VStr "tick"); ("data", VNone)].

(** The service after [request('system', 'get_random_number',
    self._random_handler)], the call having drawn the UUID 42. *)
Definition sample_asked : result unit * world :=
  request 42 (VStr "system") (VStr "get_random_number") _random_handler VNone
    sample_started.

(** The service after [report('system', 'status', 'I am alive')]. *)
Definition sample_reported : result unit * world :=
  report (VStr "system") (VStr "status") (VStr "I am alive") sample_started.

(* ------------------------------------------------------------------ *)
(** *** What one delivery can do to the service *)

(** The four ways in which the service and the call log can differ after a
    call of [_message_handler] from what they were before it: not at all; by
    one call; by one call and one message handed to the client on the
    channel of the service; by one call and the deletion of one awaited
    key. *)
Inductive delivery_effect (self : ServiceBase) (log : list event)
  : world -> Prop :=
| effect_none : delivery_effect self log (self, log)
| effect_call (e : event) : delivery_effect self log (self, (log ++ [e])%list)
| effect_reply (e : event) (sent : list (option string * text))
    (payload : text) :
    _redis_client self = Some sent ->
    delivery_effect self log
      (set_redis_client
         (Some (sent ++ [(_service_channel self, payload)])%list) self,
       (log ++ [e])%list)
| effect_resolve (e : event) (k : key) :
    delivery_effect self log
      (set_awaiting_requests (PyDict.remove k (_awaiting_requests self)) self,
       (log ++ [e])%list).

(** The handler applied to deliveries one after the other, whether an
    earlier call raised or not. *)
Definition handle_all (deliveries : list redis_message) (w : world) : world :=
  fold_left (fun w rm => snd (_message_handler rm w)) deliveries w.

(* ------------------------------------------------------------------ *)
(** *** More traffic for the sample service *)

Definition heartbeat_report : value :=
  envelope "report"
    [("id", VNone); ("origin", VStr "controller"); ("topic", VStr "system");
     ("name", VStr "heartbeat"); ("data", VNone)].


(** The sample service with one more request handler, which returns
    [None]. *)
Definition sample_with_ping : world :=
  snd (_register_handler (VStr "sample") (VStr "ping") true on_heartbeat
         sample_started).

Definition ping_request : value :=
  envelope "request"
    [("id", VStr "r-7"); ("origin", VStr "controller");
     ("topic", VStr "sample"); ("name", VStr "ping"); ("data", VNone)].

Definition listed_topic_request : value :=
  envelope "request"
    [("id", VStr "r-8"); ("origin", VStr "controller");
     ("topic", VList [VStr "sample"]); ("name", VStr "echo"); ("data", VNone)].


(* ================================================================== *)
(** ** Facts about the dictionaries *)

Lemma key_eqb_eq (a b : key) : key_eqb a b = true <-> a = b.
Proof.
  destruct a, b; simpl; split; intro H;
    try discriminate; try reflexivity;
    try (apply Z.eqb_eq in H; now subst);
    try (apply String.eqb_eq in H; now subst);
    try (apply N.eqb_eq in H; now subst);
    inversion H; subst;
    first [apply Z.eqb_refl | apply String.eqb_refl | apply N.eqb_refl].
Qed.

Lemma key_eqb_refl (a : key) : key_eqb a a = true.
Proof. now apply key_eqb_eq. Qed.

Lemma key_eqb_neq (a b : key) : key_eqb a b = false <-> a <> b.
Proof.
  split; intro H.
  - intro E. apply key_eqb_eq in E. congruence.
  - destruct (key_eqb a b) eqn:E; [apply key_eqb_eq in E; contradiction | easy].
Qed.

Lemma assoc_serialisable (d : list (string * value)) (k : string) (v : value) :
  serialisable (VDict d) = true -> assoc k d = Some v -> serialisable v = true.
Proof.
  simpl. induction d as [| [k' x] d IH]; simpl; [discriminate |].
  intros H A. apply andb_prop in H as [Hx Hd].
  destruct (String.eqb k' k); [now inversion A; subst | now apply IH].
Qed.

Lemma getitem_serialisable (raw : value) (k : string) (v : value) :
  serialisable raw = true -> getitem raw k = Ok v -> serialisable v = true.
Proof.
  destruct raw; simpl; try discriminate. intros S G.
  destruct (assoc k fields) eqn:A; [| discriminate].
  inversion G; subst. eapply assoc_serialisable; [exact S | exact A].
Qed.

(** A value that the encoder accepts is never a [UUID]; in particular no
    value read off the wire is one. *)
Lemma serialisable_not_uuid (v : value) (u : N) :
  serialisable v = true -> hash v <> Ok (KUuid u).
Proof. destruct v; simpl; congruence. Qed.

Section DictFacts.
Context {V : Type}.
Implicit Types (d : PyDict.t V) (k : key) (x : V).

Lemma lookup_store_same d k x :
  PyDict.lookup k (PyDict.store k x d) = Some x.
Proof.
  induction d as [| [k' x'] d IH]; simpl.
  - now rewrite key_eqb_refl.
  - destruct (key_eqb k' k) eqn:E; simpl; rewrite E; [reflexivity | exact IH].
Qed.

Lemma lookup_store_other d k k' x :
  k <> k' -> PyDict.lookup k' (PyDict.store k x d) = PyDict.lookup k' d.
Proof.
  intro N. induction d as [| [k0 x0] d IH]; simpl.
  - apply key_eqb_neq in N. now rewrite N.
  - destruct (key_eqb k0 k) eqn:E; simpl.
    + apply key_eqb_eq in E; subst k0. apply key_eqb_neq in N. now rewrite N.
    + now rewrite IH.
Qed.

Lemma lookup_remove_same d k : PyDict.lookup k (PyDict.remove k d) = None.
Proof.
  induction d as [| [k' x'] d IH]; simpl; [reflexivity |].
  destruct (key_eqb k' k) eqn:E; simpl; [exact IH | now rewrite E].
Qed.

Lemma lookup_remove_other d k k' :
  k <> k' -> PyDict.lookup k' (PyDict.remove k d) = PyDict.lookup k' d.
Proof.
  intro N. induction d as [| [k0 x0] d IH]; simpl; [reflexivity |].
  destruct (key_eqb k0 k) eqn:E; simpl.
  - apply key_eqb_eq in E; subst k0. apply key_eqb_neq in N. now rewrite N.
  - now rewrite IH.
Qed.

(** Overwriting a key that is present adds no entry. *)
Lemma keys_store_present d k x x' :
  PyDict.lookup k d = Some x' ->
  map fst (PyDict.store k x d) = map fst d.
Proof.
  induction d as [| [k0 x0] d IH]; simpl; [discriminate |].
  destruct (key_eqb k0 k) eqn:E; simpl; [reflexivity |].
  intro L. now rewrite IH.
Qed.

End DictFacts.

(* ================================================================== *)
(** ** What a call returns and what it leaves in the log *)

Lemma call_spec (f : callable) (arg : Envelope) (self : ServiceBase)
  (log : list event) :
  call f arg (self, log) =
    (Ok (returned f arg), (self, (log ++ [observed f arg])%list)).
Proof. destruct f; reflexivity. Qed.

(** Unfolding of the method combinators. *)
Ltac step_method :=
  unfold bind, lift, attr, update, ret; cbn [fst snd base].

(* ================================================================== *)
(** ** Decoding *)

Lemma Message_init_serialisable (raw : value) (m : Message) :
  serialisable raw = true -> Message_init raw = Ok m ->
  serialisable (_id m) = true /\ serialisable (_origin m) = true /\
  serialisable (_topic m) = true /\ serialisable (_name m) = true /\
  serialisable (_data m) = true.
Proof.
  intros S. unfold Message_init.
  destruct (getitem raw "id") as [i |] eqn:Ei; [| discriminate].
  destruct (getitem raw "origin") as [o |] eqn:Eo; [| discriminate].
  destruct (getitem raw "topic") as [t |] eqn:Et; [| discriminate].
  destruct (getitem raw "name") as [n |] eqn:En; [| discriminate].
  destruct (getitem raw "data") as [d |] eqn:Ed; [| discriminate].
  simpl. intro H; inversion H; subst; simpl.
  repeat split; eapply getitem_serialisable; eassumption.
Qed.

Lemma Message_init_lacks (raw : value) (k : string) :
  In k ["id"; "origin"; "topic"; "name"; "data"] -> lacks raw k = true ->
  raises (Message_init raw) = true.
Proof.
  unfold lacks, Message_init. intros I L.
  destruct (getitem raw "id") eqn:Ei; simpl;
    [| reflexivity].
  destruct (getitem raw "origin") eqn:Eo; simpl; [| reflexivity].
  destruct (getitem raw "topic") eqn:Et; simpl; [| reflexivity].
  destruct (getitem raw "name") eqn:En; simpl; [| reflexivity].
  destruct (getitem raw "data") eqn:Ed; simpl; [| reflexivity].
  simpl in I.
  repeat (destruct I as [I | I];
          [subst k;
           first [rewrite Ei in L | rewrite Eo in L | rewrite Et in L
                 | rewrite En in L | rewrite Ed in L]; discriminate |]);
    contradiction.
Qed.

(** The handler goes through [decode] before it does anything else: when
    that raises, so does the handler, at once. *)
Lemma message_handler_decode_raises (rm : redis_message) (w : world) (e : exn) :
  rm_type rm = "message" -> receive (rm_data rm) = Raise e ->
  _message_handler rm w = (Raise e, w).
Proof.
  intros T R. unfold _message_handler. rewrite T. simpl String.eqb. cbv iota.
  unfold receive in R. step_method.
  destruct (json_loads (rm_data rm)) as [message |] eqn:L; simpl in R;
    [| now inversion R].
  unfold decode in R.
  destruct (getitem message "type") as [ty |] eqn:G; simpl in R;
    [| now inversion R].
  destruct (is_str ty "request").
  { unfold Request_init in *.
    destruct (Message_init message); simpl in *; [discriminate | now inversion R]. }
  destruct (is_str ty "report").
  { unfold Report_init in *.
    destruct (Message_init message); simpl in *; [discriminate | now inversion R]. }
  destruct (is_str ty "response"); [| discriminate].
  destruct (Response_init message); simpl in *; [discriminate | now inversion R].
Qed.

(** A message whose type is none of the three is ignored. *)
Lemma message_handler_skips_unknown (rm : redis_message) (w : world) :
  rm_type rm = "message" -> receive (rm_data rm) = Ok None ->
  _message_handler rm w = (Ok tt, w).
Proof.
  intros T R. unfold _message_handler. rewrite T. simpl String.eqb. cbv iota.
  unfold receive in R. step_method.
  destruct (json_loads (rm_data rm)) as [message |] eqn:L; simpl in R;
    [| discriminate].
  unfold decode in R.
  destruct (getitem message "type") as [ty |] eqn:G; simpl in R;
    [| discriminate].
  destruct (is_str ty "request").
  { unfold Request_init in R. destruct (Message_init message); discriminate. }
  destruct (is_str ty "report").
  { unfold Report_init in R. destruct (Message_init message); discriminate. }
  destruct (is_str ty "response"); [| reflexivity].
  destruct (Response_init message); discriminate.
Qed.

(** A delivery that is not a message (a subscription notice) does nothing. *)
Lemma message_handler_other_delivery (rm : redis_message) (w : world) :
  String.eqb (rm_type rm) "message" = false -> _message_handler rm w = (Ok tt, w).
Proof. intro T. unfold _message_handler. now rewrite T. Qed.

(* ================================================================== *)
(** ** Requests *)

Lemma handle_request_unrouted (request : Envelope) (w : world) :
  _find_handler (_topic (base request)) (_name (base request))
    (_request_handlers (fst w)) = Ok None ->
  _handle_request request w = (Ok None, w).
Proof.
  intro F. unfold _handle_request. step_method. now rewrite F.
Qed.

Lemma handle_request_routed (request : Envelope) (h : callable)
  (self : ServiceBase) (log : list event) :
  _find_handler (_topic (base request)) (_name (base request))
    (_request_handlers self) = Ok (Some h) ->
  _handle_request request (self, log) =
    (Ok (Some (VDict
       ([("id", _id (base request)); ("type", VStr "response");
         ("topic", _topic (base request)); ("name", _name (base request));
         ("origin", VStr (_service_name self))]
        ++ (if is_not_None (returned h request)
            then [("data", returned h request)] else []))%list)),
     (self, (log ++ [observed h request])%list)).
Proof.
  intro F. unfold _handle_request. step_method. rewrite F.
  rewrite call_spec. step_method.
  destruct (is_not_None (returned h request)); reflexivity.
Qed.

Lemma message_handler_request (rm : redis_message) (message ty : value)
  (m : Message) (w : world) :
  rm_type rm = "message" -> json_loads (rm_data rm) = Ok message ->
  getitem message "type" = Ok ty -> is_str ty "request" = true ->
  Message_init message = Ok m ->
  _message_handler rm w =
    (response <- _handle_request (Request m) ;;
     match response with
     | Some r => channel <- attr _service_channel ;; publish_dumps channel r
     | None => ret tt
     end) w.
Proof.
  intros T L G K I. unfold _message_handler. rewrite T. simpl String.eqb.
  cbv iota. unfold bind at 1, lift at 1. rewrite L.
  unfold bind at 1, lift at 1. rewrite G. rewrite K.
  unfold bind at 1, lift at 1, Request_init. rewrite I. reflexivity.
Qed.

Lemma json_loads_serialisable (t : text) (v : value) :
  json_loads t = Ok v -> serialisable v = true.
Proof.
  destruct t as [v' | b]; simpl; [| discriminate].
  destruct (serialisable v') eqn:S; [| discriminate].
  now intro H; inversion H; subst.
Qed.

(** C2.  A Request whose (topic, name) has a request handler that returns a
    payload other than [None] (a JSON value) makes the handler publish one
    message more, on the channel of the service itself: the Response with
    the [id], [topic] and [name] of the Request, the name of the service as
    [origin] and the payload as [data].  The handler was called once, with
    the Request. *)
Theorem request_handled_publishes_response
  (self : ServiceBase) (log : list event) (sent : list (option string * text))
  (rm : redis_message) (message ty : value) (m : Message) (h : callable) :
  _redis_client self = Some sent ->
  rm_type rm = "message" -> json_loads (rm_data rm) = Ok message ->
  getitem message "type" = Ok ty -> is_str ty "request" = true ->
  Message_init message = Ok m ->
  _find_handler (_topic m) (_name m) (_request_handlers self) = Ok (Some h) ->
  is_not_None (returned h (Request m)) = true ->
  serialisable (returned h (Request m)) = true ->
  _message_handler rm (self, log) =
    (Ok tt,
     (set_redis_client
        (Some (sent ++
               [(_service_channel self,
                 Dumped (VDict [("id", _id m);
                                ("type", VStr "response");
                                ("topic", _topic m);
                                ("name", _name m);
                                ("origin", VStr (_service_name self));
                                ("data", returned h (Request m))]))])%list)
        self,
      (log ++ [observed h (Request m)])%list)).
Proof.
  intros C T L G K I F P S.
  rewrite (message_handler_request rm message ty m _ T L G K I).
  unfold bind at 1. rewrite (handle_request_routed (Request m) h self log F).
  rewrite P. cbn [app]. step_method.
  unfold publish_dumps. step_method. rewrite C.
  pose proof (json_loads_serialisable _ _ L) as SM.
  destruct (Message_init_serialisable message m SM I) as (Si & _ & St & Sn & _).
  unfold json_dumps. cbn [serialisable forallb]. rewrite Si, St, Sn, S.
  reflexivity.
Qed.

Lemma request_handled_publishes_response_witness :
  _message_handler (delivery echo_request) sample_started =
    (Ok tt,
     (set_redis_client
        (Some [(Some "service:sample", Dumped echo_response)])
        (fst sample_started),
      [Called "on_echo"
         (Request (mkMessage (VStr "r-2") (VStr "controller") (VStr "sample")
                     (VStr "echo") (VDict [("message", VStr "hi")])))])).
Proof.
  exact (request_handled_publishes_response
           (fst sample_started) [] [] (delivery echo_request) echo_request
           (VStr "request")
           (mkMessage (VStr "r-2") (VStr "controller") (VStr "sample")
              (VStr "echo") (VDict [("message", VStr "hi")]))
           on_echo
           eq_refl eq_refl eq_refl eq_refl eq_refl eq_refl eq_refl eq_refl
           eq_refl).
Defined.

(** C7.  A Request whose (topic, name) has no request handler leaves the
    service exactly as it was: nothing is handed to the client, no handler
    or hook is called, no table changes, and the handler returns normally. *)
Theorem unrouted_request_is_silent
  (self : ServiceBase) (log : list event) (rm : redis_message)
  (message ty : value) (m : Message) :
  rm_type rm = "message" -> json_loads (rm_data rm) = Ok message ->
  getitem message "type" = Ok ty -> is_str ty "request" = true ->
  Message_init message = Ok m ->
  _find_handler (_topic m) (_name m) (_request_handlers self) = Ok None ->
  _message_handler rm (self, log) = (Ok tt, (self, log)).
Proof.
  intros T L G K I F.
  rewrite (message_handler_request rm message ty m _ T L G K I).
  unfold bind at 1.
  now rewrite (handle_request_unrouted (Request m) (self, log) F).
Qed.

Lemma unrouted_request_is_silent_witness :
  _message_handler (delivery unrouted_request) sample_started =
    (Ok tt, sample_started).
Proof.
  exact (unrouted_request_is_silent
           (fst sample_started) [] (delivery unrouted_request)
           unrouted_request (VStr "request")
           (mkMessage (VStr "r-3") (VStr "controller") (VStr "sample")
              (VStr "reverse") VNone)
           eq_refl eq_refl eq_refl eq_refl eq_refl eq_refl).
Defined.

(** C10.  The Response that [_handle_request] builds for a handled Request
    has the keys [id], [type], [topic], [name], [origin], and [data] when
    and only when the handler returned something other than [None]; it has
    no [status] and no [error].  So [Response.__init__] raises on it, and
    so does the decoding of its rendering on the wire. *)
Theorem built_response_has_no_status
  (self : ServiceBase) (log : list event) (m : Message) (h : callable) :
  _find_handler (_topic m) (_name m) (_request_handlers self) = Ok (Some h) ->
  exists response : list (string * value),
    fst (_handle_request (Request m) (self, log)) = Ok (Some (VDict response)) /\
    map fst response =
      (["id"; "type"; "topic"; "name"; "origin"]
       ++ (if is_not_None (returned h (Request m)) then ["data"] else []))%list /\
    assoc "status" response = None /\
    assoc "error" response = None /\
    raises (Response_init (VDict response)) = true /\
    (forall payload : text,
        json_dumps (VDict response) = Ok payload ->
        raises (receive payload) = true).
Proof.
  intro F. rewrite (handle_request_routed (Request m) h self log F).
  cbn [fst base]. eexists. split; [reflexivity |].
  assert (R : forall response,
             assoc "type" response = Some (VStr "response") ->
             raises (Response_init (VDict response)) = true ->
             forall payload, json_dumps (VDict response) = Ok payload ->
                             raises (receive payload) = true).
  { intros response Ty Ri payload D. unfold json_dumps in D.
    destruct (serialisable (VDict response)) eqn:S; [| discriminate].
    inversion D; subst payload. unfold receive, json_loads. rewrite S.
    unfold decode, rbind, getitem. rewrite Ty. cbn [is_str String.eqb].
    cbn. destruct (Response_init (VDict response)); [discriminate | reflexivity]. }
  destruct (is_not_None (returned h (Request m)));
    (split; [reflexivity |]); (split; [reflexivity |]);
    (split; [reflexivity |]); (split; [reflexivity |]);
    apply R; reflexivity.
Qed.

Lemma built_response_has_no_status_witness :
  exists response : list (string * value),
    fst (_handle_request
           (Request (mkMessage (VStr "r-2") (VStr "controller") (VStr "sample")
                       (VStr "echo") (VDict [("message", VStr "hi")])))
           sample_started) = Ok (Some (VDict response)) /\
    map fst response = ["id"; "type"; "topic"; "name"; "origin"; "data"] /\
    assoc "status" response = None /\
    assoc "error" response = None /\
    raises (Response_init (VDict response)) = true /\
    (forall payload : text,
        json_dumps (VDict response) = Ok payload ->
        raises (receive payload) = true).
Proof.
  exact (built_response_has_no_status (fst sample_started) []
           (mkMessage (VStr "r-2") (VStr "controller") (VStr "sample")
              (VStr "echo") (VDict [("message", VStr "hi")]))
           on_echo eq_refl).
Defined.

(* ================================================================== *)
(** ** Responses *)

Lemma is_str_eq (v : value) (s : string) : is_str v s = true -> v = VStr s.
Proof.
  destruct v; simpl; try discriminate. intro E. apply String.eqb_eq in E.
  now subst.
Qed.

Lemma message_handler_response (rm : redis_message) (message ty : value)
  (response : Envelope) (w : world) :
  rm_type rm = "message" -> json_loads (rm_data rm) = Ok message ->
  getitem message "type" = Ok ty -> is_str ty "response" = true ->
  Response_init message = Ok response ->
  _message_handler rm w =
    (awaiting <- attr _awaiting_requests ;;
     handler <- lift (PyDict.get awaiting (_id (base response))) ;;
     match handler with
     | Some h =>
         call h response ;;;
         awaiting <- attr _awaiting_requests ;;
         awaiting' <- lift (PyDict.delitem awaiting (_id (base response))) ;;
         update (set_awaiting_requests awaiting')
     | None => ret tt
     end) w.
Proof.
  intros T L G K I. unfold _message_handler. rewrite T. simpl String.eqb.
  cbv iota. unfold bind at 1, lift at 1. rewrite L.
  unfold bind at 1, lift at 1. rewrite G.
  apply is_str_eq in K. subst ty. cbn [is_str String.eqb Ascii.eqb Bool.eqb].
  cbv iota. unfold bind at 1, lift at 1. rewrite I. reflexivity.
Qed.

(** C8.  A Response whose [id] is not a key of [_awaiting_requests] leaves
    the service exactly as it was: no callback is called, no table changes,
    nothing is published, and the handler returns normally. *)
Theorem unmatched_response_is_discarded
  (self : ServiceBase) (log : list event) (rm : redis_message)
  (message ty : value) (response : Envelope) :
  rm_type rm = "message" -> json_loads (rm_data rm) = Ok message ->
  getitem message "type" = Ok ty -> is_str ty "response" = true ->
  Response_init message = Ok response ->
  PyDict.get (_awaiting_requests self) (_id (base response)) = Ok None ->
  _message_handler rm (self, log) = (Ok tt, (self, log)).
Proof.
  intros T L G K I A.
  rewrite (message_handler_response rm message ty response _ T L G K I).
  step_method. now rewrite A.
Qed.

Lemma unmatched_response_is_discarded_witness :
  _message_handler (delivery (random_number_response (VStr "r-9")))
    sample_started = (Ok tt, sample_started).
Proof.
  exact (unmatched_response_is_discarded
           (fst sample_started) []
           (delivery (random_number_response (VStr "r-9")))
           (random_number_response (VStr "r-9")) (VStr "response")
           (Response
              (mkMessage (VStr "r-9") (VStr "controller") (VStr "system")
                 (VStr "get_random_number") (VDict [("value", VInt 42)]))
              0 VNone)
           eq_refl eq_refl eq_refl eq_refl eq_refl eq_refl).
Defined.


(** No delivery ever touches an entry of [_awaiting_requests] that is keyed
    by a [UUID] object: an [id] read off the wire is never one. *)
Lemma delivery_keeps_uuid_entries (rm : redis_message) (w : world) (u : N) :
  PyDict.lookup (KUuid u)
    (_awaiting_requests (fst (snd (_message_handler rm w)))) =
  PyDict.lookup (KUuid u) (_awaiting_requests (fst w)).
Proof.
  destruct w as [self log].
  destruct (String.eqb (rm_type rm) "message") eqn:T;
    [| now rewrite message_handler_other_delivery].
  apply String.eqb_eq in T.
  destruct (receive (rm_data rm)) as [[e |] | x] eqn:R;
    [| now rewrite (message_handler_skips_unknown rm _ T R)
     | now rewrite (message_handler_decode_raises rm _ x T R)].
  unfold receive in R.
  destruct (json_loads (rm_data rm)) as [message |] eqn:L; [| discriminate].
  cbn [rbind] in R. unfold decode in R.
  destruct (getitem message "type") as [ty |] eqn:G; [| discriminate].
  cbn [rbind] in R.
  destruct (is_str ty "request") eqn:K1.
  { unfold Request_init in R.
    destruct (Message_init message) as [m |] eqn:I; [| discriminate].
    rewrite (message_handler_request rm message ty m _ T L G K1 I).
    unfold bind at 1, _handle_request. step_method.
    destruct (_find_handler (_topic m) (_name m) (_request_handlers self))
      as [[h |] |]; try reflexivity.
    rewrite call_spec. step_method. unfold publish_dumps. step_method.
    destruct (_redis_client self); [| reflexivity].
    step_method.
    match goal with |- context [json_dumps ?v] => destruct (json_dumps v) end;
      reflexivity. }
  destruct (is_str ty "report") eqn:K2.
  { unfold _message_handler. rewrite T, String.eqb_refl.
    unfold bind at 1, lift at 1. rewrite L.
    unfold bind at 1, lift at 1. rewrite G, K1, K2.
    unfold Report_init in *.
    destruct (Message_init message) as [m |] eqn:I; [| discriminate].
    unfold _handle_report. step_method. cbn [rbind].
    change (base (Report m)) with m.
    destruct (_find_handler (_topic m) (_name m) (_report_handlers self))
      as [[h |] |]; try reflexivity.
    cbv beta. rewrite call_spec. reflexivity. }
  destruct (is_str ty "response") eqn:K3; [| discriminate].
  destruct (Response_init message) as [response |] eqn:I; [| discriminate].
  rewrite (message_handler_response rm message ty response _ T L G K3 I).
  step_method.
  assert (S : serialisable (_id (base response)) = true).
  { unfold Response_init in I.
    destruct (Message_init message) as [m |] eqn:Im; [| discriminate].
    cbn [rbind] in I.
    destruct (getitem message "status"); [| discriminate]. cbn [rbind] in I.
    destruct (py_int a); [| discriminate]. cbn [rbind] in I.
    inversion I; subst. cbn [base].
    apply (Message_init_serialisable message m);
      [exact (json_loads_serialisable _ _ L) | exact Im]. }
  unfold PyDict.get, rbind.
  destruct (hash (_id (base response))) as [k |] eqn:H; [| reflexivity].
  destruct (PyDict.lookup k (_awaiting_requests self)) as [h |] eqn:A;
    [| reflexivity].
  rewrite call_spec. step_method. unfold PyDict.delitem, rbind. rewrite H, A.
  cbn [fst snd _awaiting_requests set_awaiting_requests].
  apply lookup_remove_other. intro E. subst k.
  exact (serialisable_not_uuid _ u S H).
Qed.

(* ================================================================== *)
(** ** The handler registries *)

Lemma register_handler_spec (topic name : value) (is_request : bool)
  (h : callable) (self : ServiceBase) (log : list event) (kt kn : key) :
  hash topic = Ok kt -> hash name = Ok kn ->
  _register_handler topic name is_request h (self, log) =
    (Ok tt,
     ((if is_request then set_request_handlers else set_report_handlers)
        (PyDict.store kt
           (PyDict.store kn h
              (or_else (PyDict.lookup kt (dest_of is_request self)) []))
           (dest_of is_request self))
        self,
      log)).
Proof.
  intros Ht Hn. unfold _register_handler. step_method.
  unfold PyDict.contains, PyDict.item, PyDict.setitem, rbind.
  rewrite Ht, Hn.
  destruct (PyDict.lookup kt (dest_of is_request self)) as [names |];
    destruct is_request; reflexivity.
Qed.

Lemma dest_of_registered (is_request : bool)
  (d : PyDict.t (PyDict.t callable)) (self : ServiceBase) :
  dest_of is_request
    ((if is_request then set_request_handlers else set_report_handlers) d self)
  = d.
Proof. now destruct is_request. Qed.

Lemma dest_of_other_registered (is_request : bool)
  (d : PyDict.t (PyDict.t callable)) (self : ServiceBase) :
  dest_of (negb is_request)
    ((if is_request then set_request_handlers else set_report_handlers) d self)
  = dest_of (negb is_request) self.
Proof. now destruct is_request. Qed.

Lemma find_handler_registered (topic name : value) (kt kn : key)
  (names : PyDict.t callable) (d : PyDict.t (PyDict.t callable)) :
  hash topic = Ok kt -> hash name = Ok kn ->
  PyDict.lookup kt d = Some names ->
  _find_handler topic name d = Ok (PyDict.lookup kn names).
Proof.
  intros Ht Hn L. unfold _find_handler, PyDict.contains, PyDict.item,
    PyDict.get, rbind. now rewrite Ht, L, Hn.
Qed.

Lemma registration_groups_store (kt : key) (names names' : PyDict.t callable)
  (d : PyDict.t (PyDict.t callable)) :
  PyDict.lookup kt d = Some names -> map fst names' = map fst names ->
  registration_groups (PyDict.store kt names' d) = registration_groups d.
Proof.
  intros L E. unfold registration_groups. f_equal.
  induction d as [| [k0 x0] d IH]; simpl in *; [discriminate |].
  destruct (key_eqb k0 kt) eqn:K; simpl.
  - inversion L; subst x0. unfold PyDict.keys.
    rewrite <- (map_map fst unkey names'), E, (map_map fst unkey names).
    reflexivity.
  - now rewrite IH.
Qed.

(** C9.  Two registrations in a row for the same (topic, name, kind): both
    succeed, [_find_handler] then returns the second handler, the names the
    registry lists are those it listed after the first registration (the
    first binding was replaced, not shadowed), and the registry of the other
    kind is as it was. *)
Theorem last_registration_wins (topic name : value) (is_request : bool)
  (h1 h2 : callable) (w : world) (kt kn : key) :
  hash topic = Ok kt -> hash name = Ok kn ->
  exists w1 w2 : world,
    _register_handler topic name is_request h1 w = (Ok tt, w1) /\
    _register_handler topic name is_request h2 w1 = (Ok tt, w2) /\
    _find_handler topic name (dest_of is_request (fst w2)) = Ok (Some h2) /\
    registration_groups (dest_of is_request (fst w2)) =
      registration_groups (dest_of is_request (fst w1)) /\
    dest_of (negb is_request) (fst w2) = dest_of (negb is_request) (fst w).
Proof.
  intros Ht Hn. destruct w as [self log].
  do 2 eexists.
  split; [apply (register_handler_spec _ _ _ _ _ _ kt kn Ht Hn) |].
  split; [apply (register_handler_spec _ _ _ _ _ _ kt kn Ht Hn) |].
  cbn [fst]. rewrite !dest_of_registered, !dest_of_other_registered.
  rewrite lookup_store_same. cbn [or_else].
  split; [| split; [| reflexivity]].
  - rewrite (find_handler_registered topic name kt kn _ _ Ht Hn
               (lookup_store_same _ _ _)).
    now rewrite lookup_store_same.
  - eapply registration_groups_store; [apply lookup_store_same |].
    eapply keys_store_present. apply lookup_store_same.
Qed.

Lemma last_registration_wins_witness :
  exists w1 w2 : world,
    _register_handler (VStr "sample") (VStr "echo") true on_heartbeat
      sample_started = (Ok tt, w1) /\
    _register_handler (VStr "sample") (VStr "echo") true on_echo w1
      = (Ok tt, w2) /\
    _find_handler (VStr "sample") (VStr "echo") (dest_of true (fst w2))
      = Ok (Some on_echo) /\
    registration_groups (dest_of true (fst w2)) =
      registration_groups (dest_of true (fst w1)) /\
    dest_of (negb true) (fst w2) = dest_of (negb true) (fst sample_started).
Proof.
  exact (last_registration_wins (VStr "sample") (VStr "echo") true
           on_heartbeat on_echo sample_started (KStr "sample") (KStr "echo")
           eq_refl eq_refl).
Defined.

(* ================================================================== *)
(** ** Deliveries that do not decode *)

(** C6, as the code has it.  When the payload of a delivery does not decode,
    the handler publishes nothing, calls no handler and no callback and
    changes no table; the exception of the decoding is not caught: the
    handler raises it to its caller. *)
Theorem undecodable_delivery_propagates
  (rm : redis_message) (w : world) (e : exn) :
  rm_type rm = "message" -> receive (rm_data rm) = Raise e ->
  _message_handler rm w = (Raise e, w).
Proof. exact (message_handler_decode_raises rm w e). Qed.

Lemma undecodable_delivery_propagates_witness :
  _message_handler (mkDelivery "message" (Garbage "{oops")) sample_started =
    (Raise JSONDecodeError, sample_started).
Proof.
  exact (undecodable_delivery_propagates
           (mkDelivery "message" (Garbage "{oops")) sample_started
           JSONDecodeError eq_refl eq_refl).
Defined.

(** C6, as stated, fails: a payload that is not JSON, and a Request without
    its [data], both make the handler raise to its caller. *)
Lemma undecodable_delivery_raises :
  (raises (receive (Garbage "{oops")) = true /\
   fst (_message_handler (mkDelivery "message" (Garbage "{oops"))
          sample_started) = Raise JSONDecodeError) /\
  (raises (receive (Dumped request_without_data)) = true /\
   fst (_message_handler (delivery request_without_data) sample_started) =
     Raise (KeyError (VStr "data"))).
Proof. repeat split. Qed.

(* ------------------------------------------------------------------ *)
(** *** Which messages decode *)

Lemma decode_raises_iff (message ty : value) :
  getitem message "type" = Ok ty -> known_kind ty = true ->
  raises (decode message) =
    raises (Message_init message)
    || (is_str ty "response"
        && raises (s <- getitem message "status" ;; py_int s)%result).
Proof.
  intros G K. unfold decode. rewrite G. cbn [rbind].
  unfold known_kind in K.
  destruct (is_str ty "request") eqn:K1.
  { apply is_str_eq in K1. subst ty. cbn [is_str String.eqb Ascii.eqb Bool.eqb].
    cbn [andb]. rewrite orb_false_r. unfold Request_init.
    now destruct (Message_init message). }
  destruct (is_str ty "report") eqn:K2.
  { apply is_str_eq in K2. subst ty. cbn [is_str String.eqb Ascii.eqb Bool.eqb].
    cbn [andb]. rewrite orb_false_r. unfold Report_init.
    now destruct (Message_init message). }
  destruct (is_str ty "response") eqn:K3; [| discriminate].
  unfold Response_init. destruct (Message_init message); cbn [rbind raises orb andb];
    [| reflexivity].
  destruct (getitem message "status") as [s |]; cbn [rbind raises];
    [| reflexivity].
  now destruct (py_int s).
Qed.

(** C4, as the code has it.  A message without a [type] does not decode.
    A message whose type is report, request or response does not decode when
    [origin], [topic] or [name] is missing, when it is a request or a
    response and [id] is missing, or when it is a response whose [status] is
    missing or is not something [int] accepts.  A message of any other type
    raises nothing: no envelope is built and the handler ignores it. *)
Theorem decode_failures (message : value) :
  (forall e : exn,
      getitem message "type" = Raise e -> decode message = Raise e) /\
  (forall ty : value,
      getitem message "type" = Ok ty -> known_kind ty = true ->
      header_incomplete message ty = true -> raises (decode message) = true) /\
  (forall ty : value,
      getitem message "type" = Ok ty -> known_kind ty = false ->
      decode message = Ok None).
Proof.
  split; [| split].
  - intros e G. unfold decode. now rewrite G.
  - intros ty G K H. rewrite (decode_raises_iff message ty G K).
    unfold header_incomplete in H.
    repeat (apply orb_prop in H as [H | H]).
    + rewrite (Message_init_lacks message "origin"); [reflexivity | | exact H].
      simpl; tauto.
    + rewrite (Message_init_lacks message "topic"); [reflexivity | | exact H].
      simpl; tauto.
    + rewrite (Message_init_lacks message "name"); [reflexivity | | exact H].
      simpl; tauto.
    + apply andb_prop in H as [_ H].
      rewrite (Message_init_lacks message "id"); [reflexivity | | exact H].
      simpl; tauto.
    + rewrite H. apply orb_true_r.
  - intros ty G K. unfold decode. rewrite G. cbn [rbind].
    unfold known_kind in K.
    apply orb_false_elim in K as [K K3]. apply orb_false_elim in K as [K2 K1].
    now rewrite K1, K2, K3.
Qed.

Lemma decode_failures_witness :
  decode (VDict []) = Raise (KeyError (VStr "type")) /\
  raises (decode response_without_status) = true /\
  decode unknown_kind = Ok None.
Proof.
  split; [| split].
  - exact (proj1 (decode_failures (VDict [])) _ eq_refl).
  - exact (proj1 (proj2 (decode_failures response_without_status))
             (VStr "response") eq_refl eq_refl eq_refl).
  - exact (proj2 (proj2 (decode_failures unknown_kind))
             (VStr "event") eq_refl eq_refl).
Defined.

(** C4, as stated, fails on four messages: a Response with its whole header
    but no [status], a Report without [id] and a Request without [data] do
    not decode although no field that the claim requires is missing; a
    message of an unknown kind raises nothing although the claim has it
    fail. *)
Lemma decode_is_not_as_specified :
  (raises (decode response_without_status) = true /\
   spec_decode_fails response_without_status = false) /\
  (decode report_without_id = Raise (KeyError (VStr "id")) /\
   spec_decode_fails report_without_id = false) /\
  (decode request_without_data = Raise (KeyError (VStr "data")) /\
   spec_decode_fails request_without_data = false) /\
  (raises (decode unknown_kind) = false /\
   spec_decode_fails unknown_kind = true).
Proof. repeat split. Qed.

(* ================================================================== *)
(** ** Sending *)

(** [request] stores the callback under the [UUID] object it has drawn, and
    then raises: the encoder does not accept the [UUID] in the [id] field.
    Nothing is handed to the client. *)
Lemma request_spec (uuid4 : N) (topic name : value) (handler : callable)
  (payload : value) (self : ServiceBase) (log : list event)
  (sent : list (option string * text)) :
  _redis_client self = Some sent ->
  request uuid4 topic name handler payload (self, log) =
    (Raise TypeError,
     (set_awaiting_requests
        (PyDict.store (KUuid uuid4) handler (_awaiting_requests self)) self,
      log)).
Proof.
  intro C. unfold request. step_method. cbn [PyDict.setitem hash rbind].
  unfold publish_dumps. step_method.
  cbn [_redis_client set_awaiting_requests]. rewrite C.
  destruct (is_not_None payload); reflexivity.
Qed.

(** [report] publishes, on the controller's channel, a dict that has no
    [id]: read back, it does not decode. *)
Lemma report_spec (topic name payload : value) (self : ServiceBase)
  (log : list event) (sent : list (option string * text)) :
  _redis_client self = Some sent ->
  serialisable topic = true -> serialisable name = true ->
  serialisable payload = true ->
  let published :=
    Dumped (VDict [("type", VStr "report"); ("topic", topic); ("name", name);
                   ("origin", VStr (_service_name self)); ("data", payload)]) in
  report topic name payload (self, log) =
    (Ok tt,
     (set_redis_client
        (Some (sent ++ [(Some _CONTROLLER_CHANEL, published)])%list) self,
      log)) /\
  receive published = Raise (KeyError (VStr "id")).
Proof.
  intros C St Sn Sp published. split.
  - unfold report, publish_dumps. step_method. rewrite C.
    unfold json_dumps. cbn [serialisable forallb]. rewrite St, Sn, Sp.
    reflexivity.
  - unfold published, receive, json_loads. cbn [serialisable forallb].
    rewrite St, Sn, Sp. reflexivity.
Qed.

(** [run] always ends in the [TypeError] of its registration request.  By
    then the client exists, the shutdown lambda sits among the report
    handlers, and the callback of the registration is awaited; the request
    handlers are as they were. *)
Lemma run_spec (uuid4 : N) (self : ServiceBase) (log : list event) :
  run uuid4 (self, log) =
    (Raise TypeError,
     (set_awaiting_requests
        (PyDict.store (KUuid uuid4) RegisteredMethod (_awaiting_requests self))
        (set_report_handlers
           (PyDict.store (KStr "service")
              (PyDict.store (KStr "shutdown") ShutdownLambda
                 (or_else (PyDict.lookup (KStr "service")
                             (_report_handlers self)) []))
              (_report_handlers self))
           (set_redis_client (Some []) self)),
      log)).
Proof.
  unfold run. unfold bind at 1, update at 1. cbn [fst snd].
  unfold bind at 1.
  rewrite (register_handler_spec (VStr "service") (VStr "shutdown") false
             ShutdownLambda _ log (KStr "service") (KStr "shutdown")
             eq_refl eq_refl).
  unfold _register_service. step_method.
  now rewrite (request_spec uuid4 _ _ _ _ _ log []).
Qed.

Lemma run_leaves_request_handlers (uuid4 : N) (w : world) :
  _request_handlers (fst (snd (run uuid4 w))) = _request_handlers (fst w).
Proof. destruct w as [self log]. now rewrite run_spec. Qed.

(** C1, on the code.  [run] registers the shutdown lambda with
    [is_request = False]: the started sample service has it among its report
    handlers and not among its request handlers.  The Request
    (service, shutdown) finds no handler: the shutdown hook is not called
    (the call log stays empty) and nothing is published.  The same message
    sent as a Report does call the hook. *)
Theorem shutdown_request_skips_the_hook :
  _find_handler (VStr "service") (VStr "shutdown")
    (_request_handlers (fst sample_started)) = Ok None /\
  _find_handler (VStr "service") (VStr "shutdown")
    (_report_handlers (fst sample_started)) = Ok (Some ShutdownLambda) /\
  snd sample_started = [] /\
  _message_handler (delivery shutdown_request) sample_started =
    (Ok tt, sample_started) /\
  _message_handler
    (delivery (envelope "report"
                 [("id", VStr "r-1"); ("origin", VStr "controller");
                  ("topic", VStr "service"); ("name", VStr "shutdown");
                  ("data", VNone)]))
    sample_started =
    (Ok tt, (fst sample_started, [ShutdownHook])).
Proof. repeat split. Qed.

(** C3, on the code.  [request('system', 'get_random_number', C)] raises a
    [TypeError] and sends nothing; it leaves C awaited under the [UUID]
    object.  A Response then delivered, whatever its [id], calls nothing and
    removes nothing: the service is as it was before the delivery. *)
Theorem awaited_callback_is_never_called :
  fst sample_asked = Raise TypeError /\
  _redis_client (fst (snd sample_asked)) = Some [] /\
  PyDict.lookup (KUuid 42) (_awaiting_requests (fst (snd sample_asked))) =
    Some _random_handler /\
  forall id : value,
    snd (_message_handler (delivery (random_number_response id))
           (snd sample_asked)) = snd sample_asked.
Proof.
  split; [reflexivity |]. split; [reflexivity |]. split; [reflexivity |].
  intro id.
  destruct (serialisable id) eqn:S.
  - assert (L : json_loads (rm_data (delivery (random_number_response id))) =
                Ok (random_number_response id)).
    { unfold delivery, random_number_response, envelope, json_loads.
      cbn [rm_data serialisable forallb]. now rewrite S. }
    rewrite (message_handler_response
               (delivery (random_number_response id)) _ (VStr "response")
               (Response (mkMessage id (VStr "controller") (VStr "system")
                            (VStr "get_random_number")
                            (VDict [("value", VInt 42)])) 0 VNone)
               _ eq_refl L eq_refl eq_refl eq_refl).
    step_method. unfold PyDict.get, rbind. cbn [_id].
    destruct id; try discriminate; reflexivity.
  - assert (R : receive (rm_data (delivery (random_number_response id))) =
                Raise JSONDecodeError).
    { unfold delivery, random_number_response, envelope, receive, json_loads.
      cbn [rm_data serialisable forallb]. now rewrite S. }
    now rewrite (message_handler_decode_raises
                   (delivery (random_number_response id)) _ _ eq_refl R).
Qed.

(** C5, on the code.  The Report that [report('system', 'status',
    'I am alive')] publishes does not decode: it carries no [id], and
    [Message.__init__] raises [KeyError('id')] on it. *)
Theorem encoded_report_does_not_decode :
  exists payload : text,
    sample_reported =
      (Ok tt,
       (set_redis_client (Some [(Some _CONTROLLER_CHANEL, payload)])
          (fst sample_started), [])) /\
    receive payload = Raise (KeyError (VStr "id")).
Proof.
  exists (Dumped (VDict [("type", VStr "report"); ("topic", VStr "system");
                         ("name", VStr "status"); ("origin", VStr "sample");
                         ("data", VStr "I am alive")])).
  split; reflexivity.
Qed.

(** X5.  A handled Request whose handler returns [None] is answered all the same:
    [_handle_request] returns its dict whenever a handler was found, so the
    handler publishes a Response without [data]. *)
Lemma handled_request_without_payload_is_answered
  (self : ServiceBase) (log : list event) (sent : list (option string * text))
  (rm : redis_message) (message ty : value) (m : Message) (h : callable) :
  _redis_client self = Some sent ->
  rm_type rm = "message" -> json_loads (rm_data rm) = Ok message ->
  getitem message "type" = Ok ty -> is_str ty "request" = true ->
  Message_init message = Ok m ->
  _find_handler (_topic m) (_name m) (_request_handlers self) = Ok (Some h) ->
  returned h (Request m) = VNone ->
  _message_handler rm (self, log) =
    (Ok tt,
     (set_redis_client
        (Some (sent ++
               [(_service_channel self,
                 Dumped (VDict [("id", _id m);
                                ("type", VStr "response");
                                ("topic", _topic m);
                                ("name", _name m);
                                ("origin", VStr (_service_name self))]))])%list)
        self,
      (log ++ [observed h (Request m)])%list)).
Proof.
  intros C T L G K I F P.
  rewrite (message_handler_request rm message ty m _ T L G K I).
  unfold bind at 1. rewrite (handle_request_routed (Request m) h self log F).
  rewrite P. cbn [is_not_None app]. step_method.
  unfold publish_dumps. step_method. rewrite C.
  pose proof (json_loads_serialisable _ _ L) as SM.
  destruct (Message_init_serialisable message m SM I) as (Si & _ & St & Sn & _).
  unfold json_dumps. cbn [serialisable forallb]. rewrite Si, St, Sn.
  step_method. reflexivity.
Qed.

(* ================================================================== *)
(** ** What a delivery can and cannot do *)

Lemma message_handler_effect (rm : redis_message) (self : ServiceBase)
  (log : list event) :
  delivery_effect self log (snd (_message_handler rm (self, log))).
Proof.
  destruct (String.eqb (rm_type rm) "message") eqn:T;
    [| rewrite message_handler_other_delivery by exact T; constructor].
  apply String.eqb_eq in T.
  destruct (receive (rm_data rm)) as [[e |] | x] eqn:R;
    [| rewrite (message_handler_skips_unknown rm _ T R); constructor
     | rewrite (message_handler_decode_raises rm _ x T R); constructor].
  unfold receive in R.
  destruct (json_loads (rm_data rm)) as [message |] eqn:L; [| discriminate].
  cbn [rbind] in R. unfold decode in R.
  destruct (getitem message "type") as [ty |] eqn:G; [| discriminate].
  cbn [rbind] in R.
  destruct (is_str ty "request") eqn:K1.
  { unfold Request_init in R.
    destruct (Message_init message) as [m |] eqn:I; [| discriminate].
    rewrite (message_handler_request rm message ty m _ T L G K1 I).
    unfold bind at 1, _handle_request. step_method.
    destruct (_find_handler (_topic m) (_name m) (_request_handlers self))
      as [[h |] |]; try (cbn [snd]; constructor).
    rewrite call_spec. step_method. unfold publish_dumps. step_method.
    destruct (_redis_client self) as [sent |] eqn:C;
      [| cbn [snd]; constructor].
    step_method.
    match goal with |- context [json_dumps ?v] => destruct (json_dumps v) end;
      cbn [snd]; [now apply effect_reply | constructor]. }
  destruct (is_str ty "report") eqn:K2.
  { unfold _message_handler. rewrite T, String.eqb_refl.
    unfold bind at 1, lift at 1. rewrite L.
    unfold bind at 1, lift at 1. rewrite G, K1, K2.
    unfold Report_init in *.
    destruct (Message_init message) as [m |] eqn:I; [| discriminate].
    unfold _handle_report. step_method. cbn [rbind].
    change (base (Report m)) with m.
    destruct (_find_handler (_topic m) (_name m) (_report_handlers self))
      as [[h |] |]; try (cbn [snd]; constructor).
    cbv beta. rewrite call_spec. cbn [snd]. constructor. }
  destruct (is_str ty "response") eqn:K3; [| discriminate].
  destruct (Response_init message) as [response |] eqn:I; [| discriminate].
  rewrite (message_handler_response rm message ty response _ T L G K3 I).
  step_method. unfold PyDict.get, rbind.
  destruct (hash (_id (base response))) as [k |] eqn:H;
    [| cbn [snd]; constructor].
  destruct (PyDict.lookup k (_awaiting_requests self)) as [h |] eqn:A;
    [| cbn [snd]; constructor].
  rewrite call_spec. step_method. unfold PyDict.delitem, rbind. rewrite H, A.
  cbn [snd]. constructor.
Qed.

Lemma lookup_remove_some {V : Type} (d : PyDict.t V) (k k' : key) (x : V) :
  PyDict.lookup k' (PyDict.remove k d) = Some x -> PyDict.lookup k' d = Some x.
Proof.
  destruct (key_eqb k k') eqn:E.
  - apply key_eqb_eq in E. subst k'. now rewrite lookup_remove_same.
  - apply key_eqb_neq in E. now rewrite (lookup_remove_other d k k' E).
Qed.

(** X8.  Whatever is delivered, the handler leaves both registries, the
    name, the channel and the address of the service as they were. *)
Theorem delivery_keeps_registries (rm : redis_message) (w : world) :
  let self' := fst (snd (_message_handler rm w)) in
  _request_handlers self' = _request_handlers (fst w) /\
  _report_handlers self' = _report_handlers (fst w) /\
  _service_name self' = _service_name (fst w) /\
  _service_channel self' = _service_channel (fst w) /\
  _redis_host self' = _redis_host (fst w) /\
  _redis_port self' = _redis_port (fst w).
Proof.
  destruct w as [self log]. cbv zeta.
  destruct (message_handler_effect rm self log); cbn; repeat split.
Qed.

(** X9.  One delivery makes the handler publish at most one message, and
    only on the channel of the service itself: what the client was handed
    is as before, or one pair (own channel, payload) longer. *)
Theorem delivery_publishes_at_most_once (rm : redis_message) (w : world) :
  let self' := fst (snd (_message_handler rm w)) in
  _redis_client self' = _redis_client (fst w) \/
  exists (sent : list (option string * text)) (payload : text),
    _redis_client (fst w) = Some sent /\
    _redis_client self' =
      Some (sent ++ [(_service_channel (fst w), payload)])%list.
Proof.
  destruct w as [self log]. cbv zeta.
  destruct (message_handler_effect rm self log) as [| e | e sent p C | e k];
    cbn; try (left; reflexivity).
  right. now exists sent, p.
Qed.

(** X10.  One delivery makes the handler call at most one handler, callback
    or hook: the call log is as before, or one event longer. *)
Theorem delivery_calls_at_most_once (rm : redis_message) (w : world) :
  let log' := snd (snd (_message_handler rm w)) in
  log' = snd w \/ exists e : event, log' = (snd w ++ [e])%list.
Proof.
  destruct w as [self log]. cbv zeta.
  destruct (message_handler_effect rm self log) as [| e | e sent p C | e k];
    cbn; [left; reflexivity | right; now exists e ..].
Qed.

(** X11.  No delivery adds to [_awaiting_requests]: a callback awaited under
    some key after the handler ran was awaited under it before. *)
Theorem delivery_never_adds_awaited (rm : redis_message) (w : world)
  (k : key) (h : callable) :
  PyDict.lookup k (_awaiting_requests (fst (snd (_message_handler rm w)))) =
    Some h ->
  PyDict.lookup k (_awaiting_requests (fst w)) = Some h.
Proof.
  destruct w as [self log].
  destruct (message_handler_effect rm self log) as [| e | e sent p C | e k'];
    cbn; try easy.
  apply lookup_remove_some.
Qed.

Lemma delivery_never_adds_awaited_witness :
  PyDict.lookup (KUuid 7) (_awaiting_requests (fst sample_started)) =
    Some RegisteredMethod.
Proof.
  exact (delivery_never_adds_awaited (delivery echo_request) sample_started
           (KUuid 7) RegisteredMethod eq_refl).
Defined.

(** X7.  A callback that [request] has stored stays awaited for ever: after
    the call, whatever deliveries the handler is given afterwards, the entry
    under the drawn [UUID] is still the callback. *)
Theorem awaited_request_is_never_resolved
  (uuid4 : N) (topic name : value) (handler : callable) (payload : value)
  (w : world) (deliveries : list redis_message) :
  PyDict.lookup (KUuid uuid4)
    (_awaiting_requests
       (fst (handle_all deliveries
               (snd (request uuid4 topic name handler payload w))))) =
  Some handler.
Proof.
  assert (K : forall rms w',
             PyDict.lookup (KUuid uuid4)
               (_awaiting_requests (fst (handle_all rms w'))) =
             PyDict.lookup (KUuid uuid4) (_awaiting_requests (fst w'))).
  { induction rms as [| rm rms IH]; intro w'; [reflexivity |].
    unfold handle_all in *. cbn [fold_left]. rewrite IH.
    apply delivery_keeps_uuid_entries. }
  rewrite K. destruct w as [self log]. unfold request. step_method.
  cbn [PyDict.setitem hash rbind]. unfold publish_dumps. step_method.
  cbn [_redis_client set_awaiting_requests].
  destruct (_redis_client self); step_method;
    [destruct (is_not_None payload) |]; cbn; apply lookup_store_same.
Qed.

(** X2.  [request] never returns and never sends: on a started service it
    raises [TypeError] (the [UUID] in [id] cannot be encoded), on a service
    without a client [AttributeError]; nothing is handed to the client, and
    in both cases the callback has been stored under the [UUID]. *)
Theorem request_never_sends
  (uuid4 : N) (topic name : value) (handler : callable) (payload : value)
  (self : ServiceBase) (log : list event) :
  request uuid4 topic name handler payload (self, log) =
    (Raise (match _redis_client self with
            | Some _ => TypeError
            | None => AttributeError
            end),
     (set_awaiting_requests
        (PyDict.store (KUuid uuid4) handler (_awaiting_requests self)) self,
      log)).
Proof.
  destruct (_redis_client self) as [sent |] eqn:C.
  - exact (request_spec uuid4 topic name handler payload self log sent C).
  - unfold request. step_method. cbn [PyDict.setitem hash rbind].
    unfold publish_dumps. step_method.
    cbn [_redis_client set_awaiting_requests]. now rewrite C.
Qed.


(** X3.  [report] either publishes exactly one message, on the controller's
    channel, or raises and changes nothing: [AttributeError] when the
    service has no client, [TypeError] when topic, name or payload cannot be
    encoded.  It touches no table and calls nothing. *)
Theorem report_publishes_or_raises
  (topic name payload : value) (self : ServiceBase) (log : list event) :
  report topic name payload (self, log) =
    match _redis_client self with
    | None => (Raise AttributeError, (self, log))
    | Some sent =>
        if serialisable topic && serialisable name && serialisable payload
        then
          (Ok tt,
           (set_redis_client
              (Some
                 (sent ++
                  [(Some _CONTROLLER_CHANEL,
                    Dumped (VDict [("type", VStr "report"); ("topic", topic);
                                   ("name", name);
                                   ("origin", VStr (_service_name self));
                                   ("data", payload)]))])%list)
              self,
            log))
        else (Raise TypeError, (self, log))
    end.
Proof.
  unfold report, publish_dumps. step_method.
  destruct (_redis_client self) as [sent |]; [| reflexivity].
  unfold json_dumps. cbn [serialisable forallb].
  destruct (serialisable topic), (serialisable name), (serialisable payload);
    reflexivity.
Qed.

(* ================================================================== *)
(** ** Reports *)

Lemma message_handler_report (rm : redis_message) (message ty : value)
  (m : Message) (w : world) :
  rm_type rm = "message" -> json_loads (rm_data rm) = Ok message ->
  getitem message "type" = Ok ty -> is_str ty "report" = true ->
  Message_init message = Ok m ->
  _message_handler rm w = _handle_report (Report m) w.
Proof.
  intros T L G K I. unfold _message_handler. rewrite T, String.eqb_refl.
  unfold bind at 1, lift at 1. rewrite L.
  unfold bind at 1, lift at 1. rewrite G.
  apply is_str_eq in K. subst ty. cbn [is_str String.eqb Ascii.eqb Bool.eqb].
  cbv iota. unfold bind at 1, lift at 1, Report_init. rewrite I. reflexivity.
Qed.

Lemma handle_report_spec (m : Message) (found : option callable)
  (self : ServiceBase) (log : list event) :
  _find_handler (_topic m) (_name m) (_report_handlers self) = Ok found ->
  _handle_report (Report m) (self, log) =
    (Ok tt,
     (self,
      (log ++ match found with
              | Some h => [observed h (Report m)]
              | None => []
              end)%list)).
Proof.
  intro F. unfold _handle_report. step_method. rewrite F.
  destruct found as [h |]; [| now rewrite app_nil_r].
  cbv beta. now rewrite call_spec.
Qed.

(** X4.  A Report is never answered.  When it decodes, the handler returns
    normally, publishes nothing and changes no table; the report handler
    registered for its (topic, name), if there is one, is called exactly
    once with the Report, and what it returns is dropped. *)
Theorem report_is_never_answered
  (self : ServiceBase) (log : list event) (rm : redis_message)
  (message ty : value) (m : Message) (found : option callable) :
  rm_type rm = "message" -> json_loads (rm_data rm) = Ok message ->
  getitem message "type" = Ok ty -> is_str ty "report" = true ->
  Message_init message = Ok m ->
  _find_handler (_topic m) (_name m) (_report_handlers self) = Ok found ->
  _message_handler rm (self, log) =
    (Ok tt,
     (self,
      (log ++ match found with
              | Some h => [observed h (Report m)]
              | None => []
              end)%list)).
Proof.
  intros T L G K I F.
  rewrite (message_handler_report rm message ty m _ T L G K I).
  exact (handle_report_spec m found self log F).
Qed.

Lemma report_is_never_answered_witness :
  _message_handler (delivery heartbeat_report) sample_started =
    (Ok tt,
     (fst sample_started,
      [Called "on_heartbeat"
         (Report (mkMessage VNone (VStr "controller") (VStr "system")
                    (VStr "heartbeat") VNone))])).
Proof.
  exact (report_is_never_answered (fst sample_started) []
           (delivery heartbeat_report) heartbeat_report (VStr "report")
           (mkMessage VNone (VStr "controller") (VStr "system")
              (VStr "heartbeat") VNone)
           (Some on_heartbeat)
           eq_refl eq_refl eq_refl eq_refl eq_refl eq_refl).
Defined.



(* ================================================================== *)
(** ** More on requests and responses *)

Lemma handled_request_without_payload_is_answered_witness :
  _message_handler (delivery ping_request) sample_with_ping =
    (Ok tt,
     (set_redis_client
        (Some [(Some "service:sample",
                Dumped (VDict [("id", VStr "r-7"); ("type", VStr "response");
                               ("topic", VStr "sample"); ("name", VStr "ping");
                               ("origin", VStr "sample")]))])
        (fst sample_with_ping),
      [Called "on_heartbeat"
         (Request (mkMessage (VStr "r-7") (VStr "controller") (VStr "sample")
                     (VStr "ping") VNone))])).
Proof.
  exact (handled_request_without_payload_is_answered
           (fst sample_with_ping) [] [] (delivery ping_request) ping_request
           (VStr "request")
           (mkMessage (VStr "r-7") (VStr "controller") (VStr "sample")
              (VStr "ping") VNone)
           on_heartbeat
           eq_refl eq_refl eq_refl eq_refl eq_refl eq_refl eq_refl eq_refl).
Defined.


Lemma hash_raises_TypeError (v : value) (e : exn) :
  hash v = Raise e -> e = TypeError.
Proof. destruct v; simpl; congruence. Qed.

(** X13.  A Request whose [topic] is a JSON array or object cannot be
    looked up: [topic not in handlers] raises, and so does the handler, to
    its caller, before anything is called or published. *)
Theorem unhashable_topic_raises
  (self : ServiceBase) (log : list event) (rm : redis_message)
  (message ty : value) (m : Message) :
  rm_type rm = "message" -> json_loads (rm_data rm) = Ok message ->
  getitem message "type" = Ok ty -> is_str ty "request" = true ->
  Message_init message = Ok m ->
  raises (hash (_topic m)) = true ->
  _message_handler rm (self, log) = (Raise TypeError, (self, log)).
Proof.
  intros T L G K I H.
  rewrite (message_handler_request rm message ty m _ T L G K I).
  unfold bind at 1, _handle_request. step_method.
  unfold _find_handler, PyDict.contains, rbind.
  destruct (hash (_topic m)) as [k | e] eqn:E; [discriminate |].
  now rewrite (hash_raises_TypeError _ _ E).
Qed.

Lemma unhashable_topic_raises_witness :
  _message_handler (delivery listed_topic_request) sample_started =
    (Raise TypeError, sample_started).
Proof.
  exact (unhashable_topic_raises (fst sample_started) []
           (delivery listed_topic_request) listed_topic_request
           (VStr "request")
           (mkMessage (VStr "r-8") (VStr "controller") (VList [VStr "sample"])
              (VStr "echo") VNone)
           eq_refl eq_refl eq_refl eq_refl eq_refl eq_refl).
Defined.

(* ================================================================== *)
(** ** Configuration and registration *)

(** X12.  After [configure] the channel of the service is [service:]
    followed by its name, whether the name came from the config or was kept.
    It is the shared controller channel exactly when the name is
    [controller].  [configure] touches no table and no client, and doing it
    again with the same config changes nothing. *)
Theorem configure_names_the_channel (cfg : config) (self : ServiceBase) :
  let self' := configure cfg self in
  _service_channel self' = Some ("service:" ++ _service_name self') /\
  (_service_channel self' = Some _CONTROLLER_CHANEL <->
   _service_name self' = "controller") /\
  _request_handlers self' = _request_handlers self /\
  _report_handlers self' = _report_handlers self /\
  _awaiting_requests self' = _awaiting_requests self /\
  _redis_client self' = _redis_client self /\
  configure cfg self' = self'.
Proof.
  cbv zeta. split; [reflexivity |]. split; [| repeat split].
  - cbn [configure _service_channel _service_name]. unfold _CONTROLLER_CHANEL.
    split; intro H.
    + now inversion H.
    + now rewrite H.
  - destruct cfg as [[n |] [h |] [p |]]; reflexivity.
Qed.

Lemma find_handler_hashable (topic name : value) (kt kn : key)
  (d : PyDict.t (PyDict.t callable)) :
  hash topic = Ok kt -> hash name = Ok kn ->
  _find_handler topic name d =
    Ok (match PyDict.lookup kt d with
        | Some names => PyDict.lookup kn names
        | None => None
        end).
Proof.
  intros Ht Hn. unfold _find_handler, PyDict.contains, PyDict.item,
    PyDict.get, rbind. rewrite Ht.
  destruct (PyDict.lookup kt d); cbn [negb]; [now rewrite Hn | reflexivity].
Qed.

(** X14.  One registration binds its own key and nothing else: afterwards
    [_find_handler] returns the handler for the registered (topic, name);
    for any other (topic, name) of the same kind it returns what it returned
    before; the registry of the other kind, the awaited callbacks, the
    client and the call log are untouched. *)
Theorem registration_is_local
  (topic name topic' name' : value) (is_request : bool) (h : callable)
  (w : world) (kt kn kt' kn' : key) :
  hash topic = Ok kt -> hash name = Ok kn ->
  hash topic' = Ok kt' -> hash name' = Ok kn' ->
  (kt, kn) <> (kt', kn') ->
  let w' := snd (_register_handler topic name is_request h w) in
  fst (_register_handler topic name is_request h w) = Ok tt /\
  _find_handler topic name (dest_of is_request (fst w')) = Ok (Some h) /\
  _find_handler topic' name' (dest_of is_request (fst w')) =
    _find_handler topic' name' (dest_of is_request (fst w)) /\
  dest_of (negb is_request) (fst w') = dest_of (negb is_request) (fst w) /\
  _awaiting_requests (fst w') = _awaiting_requests (fst w) /\
  _redis_client (fst w') = _redis_client (fst w) /\
  snd w' = snd w.
Proof.
  intros Ht Hn Ht' Hn' D. destruct w as [self log]. cbv zeta.
  rewrite (register_handler_spec topic name is_request h self log kt kn Ht Hn).
  cbn [fst snd]. rewrite dest_of_registered, dest_of_other_registered.
  split; [reflexivity |].
  rewrite (find_handler_hashable topic name kt kn _ Ht Hn).
  rewrite !(find_handler_hashable topic' name' kt' kn' _ Ht' Hn').
  rewrite lookup_store_same.
  split; [now rewrite lookup_store_same |].
  split; [| now destruct is_request].
  f_equal. destruct (key_eqb kt kt') eqn:E.
  - apply key_eqb_eq in E. subst kt'. rewrite lookup_store_same.
    assert (N : kn <> kn') by (intro; subst; now apply D).
    rewrite (lookup_store_other _ kn kn' h N).
    now destruct (PyDict.lookup kt (dest_of is_request self)).
  - apply key_eqb_neq in E. now rewrite (lookup_store_other _ kt kt' _ E).
Qed.

Lemma registration_is_local_witness :
  let w' := snd (_register_handler (VStr "sample") (VStr "ping") true
                   on_heartbeat sample_started) in
  fst (_register_handler (VStr "sample") (VStr "ping") true on_heartbeat
         sample_started) = Ok tt /\
  _find_handler (VStr "sample") (VStr "ping") (dest_of true (fst w')) =
    Ok (Some on_heartbeat) /\
  _find_handler (VStr "sample") (VStr "echo") (dest_of true (fst w')) =
    _find_handler (VStr "sample") (VStr "echo")
      (dest_of true (fst sample_started)) /\
  dest_of (negb true) (fst w') = dest_of (negb true) (fst sample_started) /\
  _awaiting_requests (fst w') = _awaiting_requests (fst sample_started) /\
  _redis_client (fst w') = _redis_client (fst sample_started) /\
  snd w' = snd sample_started.
Proof.
  refine (registration_is_local (VStr "sample") (VStr "ping") (VStr "sample")
            (VStr "echo") true on_heartbeat sample_started (KStr "sample")
            (KStr "ping") (KStr "sample") (KStr "echo")
            eq_refl eq_refl eq_refl eq_refl _).
  discriminate.
Defined.

(** X15.  Registering under a topic or a name that is a list, a dict or a
    key view raises [TypeError] and leaves the service as it was. *)
Theorem unhashable_registration_raises
  (topic name : value) (is_request : bool) (h : callable) (w : world) :
  raises (hash topic) || raises (hash name) = true ->
  _register_handler topic name is_request h w = (Raise TypeError, w).
Proof.
  intro H. destruct w as [self log]. unfold _register_handler. step_method.
  unfold PyDict.contains, PyDict.item, PyDict.setitem, rbind.
  destruct (hash topic) as [kt | e] eqn:Et;
    [| now rewrite (hash_raises_TypeError _ _ Et)].
  destruct (hash name) as [kn | e] eqn:En; [discriminate |].
  rewrite (hash_raises_TypeError _ _ En).
  now destruct (PyDict.lookup kt (dest_of is_request self)).
Qed.

Lemma unhashable_registration_raises_witness :
  _register_handler (VStr "sample") (VList []) true on_echo sample_started =
    (Raise TypeError, sample_started).
Proof.
  exact (unhashable_registration_raises (VStr "sample") (VList []) true
           on_echo sample_started eq_refl).
Defined.




(* ================================================================== *)
(** ** Exactly which messages decode *)

Lemma Message_init_raises (raw : value) :
  raises (Message_init raw) =
    existsb (lacks raw) ["id"; "origin"; "topic"; "name"; "data"].
Proof.
  unfold Message_init, lacks. cbn [existsb].
  destruct (getitem raw "id"); [| reflexivity].
  destruct (getitem raw "origin"); [| reflexivity].
  destruct (getitem raw "topic"); [| reflexivity].
  destruct (getitem raw "name"); [| reflexivity].
  destruct (getitem raw "data"); reflexivity.
Qed.

(** X16.  A message of type report, request or response fails to decode
    exactly when one of [id], [origin], [topic], [name], [data] is missing,
    whatever its kind, or when it is a response whose [status] is missing
    or is refused by [int]. *)
Theorem decode_raises_exactly_when (message ty : value) :
  getitem message "type" = Ok ty -> known_kind ty = true ->
  raises (decode message) =
    existsb (lacks message) ["id"; "origin"; "topic"; "name"; "data"]
    || (is_str ty "response"
        && raises (s <- getitem message "status" ;; py_int s)%result).
Proof.
  intros G K. rewrite (decode_raises_iff message ty G K).
  now rewrite Message_init_raises.
Qed.

Lemma decode_raises_exactly_when_witness :
  raises (decode report_without_id) = true.
Proof.
  exact (decode_raises_exactly_when report_without_id (VStr "report")
           eq_refl eq_refl).
Defined.
